(** * Smart Career Guidance Agent: the orchestration script, embedded

    A shallow embedding of [agent_orchestrator.py]: the simulated market
    lookup tool, the [UserProfile] hand-off schema, the crew
    configuration with its sequential process, and the top-level
    [try]/[except] block.  Python code that prints or raises is written in
    a small monad over the standard output and an exception result. *)

From Stdlib Require Import String Ascii List Bool ZArith Lia.
Import ListNotations.
Local Open Scope list_scope.
Local Open Scope string_scope.

(** ** Texts *)

Module Text.

(** The line feed, written [\n] in the source. *)
Definition nl : string := String "010"%char EmptyString.

(** [s * n] on a Python [str]. *)
Fixpoint str_mul (s : string) (n : nat) : string :=
  match n with
  | O => EmptyString
  | S n' => s ++ str_mul s n'
  end.

(** [s.startswith(p)]. *)
Fixpoint startswith (p s : string) : bool :=
  match p, s with
  | EmptyString, _ => true
  | String _ _, EmptyString => false
  | String a p', String b s' => Ascii.eqb a b && startswith p' s'
  end.

(** [sub in s] on Python texts: [sub] occurs at some position of [s],
    compared character by character (so with the case as it stands). *)
Fixpoint contains (sub s : string) : bool :=
  startswith sub s
  || match s with
     | EmptyString => false
     | String _ s' => contains sub s'
     end.

(** [s.lower()] on the ASCII letters. *)
Definition lower_ascii (c : ascii) : ascii :=
  let n := nat_of_ascii c in
  if (65 <=? n)%nat && (n <=? 90)%nat then ascii_of_nat (n + 32) else c.

Fixpoint lower (s : string) : string :=
  match s with
  | EmptyString => EmptyString
  | String c s' => String (lower_ascii c) (lower s')
  end.

(** [c.isspace()] for the characters below 256. *)
Definition isspace (c : ascii) : bool :=
  let n := nat_of_ascii c in
  ((9 <=? n) && (n <=? 13) || (28 <=? n) && (n <=? 32)
   || (n =? 133) || (n =? 160))%nat.

Fixpoint lstrip (s : string) : string :=
  match s with
  | EmptyString => EmptyString
  | String c s' => if isspace c then lstrip s' else s
  end.

(** [rstrip] keeps a character when it is no space or when something
    is kept after it. *)
Fixpoint rstrip (s : string) : string :=
  match s with
  | EmptyString => EmptyString
  | String c s' =>
      match rstrip s' with
      | EmptyString => if isspace c then EmptyString else String c EmptyString
      | r => String c r
      end
  end.

(** [s.strip()]. *)
Definition strip (s : string) : string := rstrip (lstrip s).

End Text.

Import Text.

(** ** Printing and raising *)

(** A validation error names the offending field and what is wrong with
    it, as the schema library reports them. *)
Inductive field_error : Type :=
| missing
| string_type
| int_type.

(** The exceptions of the script that are instances of [Exception]. *)
Inductive exn : Type :=
| ValidationError (errors : list (string * field_error))
| APIError (details : string)
| OtherException (details : string).

(** What has been printed so far: one entry per call of [print], the
    terminating line feed left implicit. *)
Definition stdout : Type := list string.

(** A computation that may print and may raise. *)
Definition Py (A : Type) : Type := stdout -> (exn + A) * stdout.

Definition ret {A} (x : A) : Py A := fun out => (inr x, out).

Definition bind {A B} (m : Py A) (k : A -> Py B) : Py B :=
  fun out =>
    match m out with
    | (inr x, out') => k x out'
    | (inl e, out') => (inl e, out')
    end.

Definition print (s : string) : Py unit := fun out => (inr tt, (out ++ [s])%list).

Definition raise {A} (e : exn) : Py A := fun out => (inl e, out).

(** [try: m except Exception as e: handler e]. *)
Definition try_except {A} (m : Py A) (handler : exn -> Py A) : Py A :=
  fun out =>
    match m out with
    | (inr x, out') => (inr x, out')
    | (inl e, out') => handler e out'
    end.

(** A pure result, or an exception, entering the monad. *)
Definition lift {A} (r : exn + A) : Py A :=
  match r with
  | inr x => ret x
  | inl e => raise e
  end.

Declare Scope py_scope.
Delimit Scope py_scope with py.
Notation "x <- m ;; k" := (bind m (fun x => k))
  (at level 61, m at next level, right associativity) : py_scope.
Notation "m ;; k" := (bind m (fun _ => k))
  (at level 61, right associativity) : py_scope.
Local Open Scope py_scope.

(** ** The market data tool *)

Definition tool_banner (target_role : string) : string :=
  nl ++ "--- TOOL ACTIVATED: Searching live market data for "
     ++ target_role ++ " ---".

Definition data_analyst_data : string :=
  "Market Data: The primary mandatory skills for a Junior Data Analyst are: "
  ++ "Advanced SQL, Tableau Visualization, and Python (Pandas/NumPy). "
  ++ "Secondary skills include basic cloud proficiency (AWS/Azure). "
  ++ "Typical salary range in major US metro areas is $75,000 - $95,000.".

Definition software_engineer_data : string :=
  "Market Data: Mandatory skills for a Mid-Level Software Engineer are: "
  ++ "Expertise in Python/GoLang, proficiency in Docker/Kubernetes, and AWS/GCP services. "
  ++ "Typical salary range is $120,000 - $160,000.".

Definition no_specific_data : string :=
  "Market Data: No specific data found. General requirements: excellent communication, problem-solving, and continuous learning.".

(** [google_search_market_data(target_role)]: prints the banner, then
    answers by the first branch whose test holds. *)
Definition google_search_market_data (target_role : string) : Py string :=
  print (tool_banner target_role) ;;
  if contains "Data Analyst" target_role then
    ret data_analyst_data
  else if contains "Software Engineer" target_role then
    ret software_engineer_data
  else
    ret no_specific_data.

(** The text of the branch the role selects. *)
Definition market_data (target_role : string) : string :=
  if contains "Data Analyst" target_role then data_analyst_data
  else if contains "Software Engineer" target_role then software_engineer_data
  else no_specific_data.

(** ** Python values and the hand-off schemas *)

(** The values a keyword argument (or a field of a JSON object handed over
    by an agent) may hold. *)
#[warnings="-register-all"] Inductive pyval : Type :=
| PyNone
| PyBool (b : bool)
| PyInt (z : Z)
| PyStr (s : string)
| PyList (l : list pyval)
| PyDict (d : list (string * pyval)).

Definition is_int (v : pyval) : bool :=
  match v with
  | PyInt _ => true
  | _ => false
  end.

Definition is_str (v : pyval) : bool :=
  match v with
  | PyStr _ => true
  | _ => false
  end.

(** [class UserProfile(BaseModel)]: three required fields, declared with
    a type and a description and nothing else. *)
Record UserProfile : Type := {
  current_skills : string;
  target_role : string;
  years_of_experience : Z
}.

(** [class MarketAnalysis(BaseModel)]. *)
Record MarketAnalysis : Type := {
  required_skills_found : string;
  critical_skill_gap : string;
  average_salary_range : string
}.

Section Schemas.

(** The conversions the schema library tries on a value that is not of
    the declared type already.  They belong to the library, not to the
    script, and are left open. *)
Variable coerce_str : pyval -> option string.
Variable coerce_int : pyval -> option Z.

(** A field declared [name: str = Field(description=...)]; [None] is an
    absent keyword. *)
Definition str_field (name : string) (v : option pyval)
  : (string * field_error) + string :=
  match v with
  | None => inl (name, missing)
  | Some (PyStr s) => inr s
  | Some w =>
      match coerce_str w with
      | Some s => inr s
      | None => inl (name, string_type)
      end
  end.

(** A field declared [name: int = Field(description=...)]. *)
Definition int_field (name : string) (v : option pyval)
  : (string * field_error) + Z :=
  match v with
  | None => inl (name, missing)
  | Some (PyInt z) => inr z
  | Some w =>
      match coerce_int w with
      | Some z => inr z
      | None => inl (name, int_type)
      end
  end.

Definition errors_of {A} (r : (string * field_error) + A)
  : list (string * field_error) :=
  match r with
  | inl e => [e]
  | inr _ => []
  end.

(** [UserProfile(current_skills=..., target_role=...,
    years_of_experience=...)]: every field is checked, and the errors of
    all of them are raised together. *)
Definition UserProfile_init (skills role years : option pyval)
  : exn + UserProfile :=
  match str_field "current_skills" skills,
        str_field "target_role" role,
        int_field "years_of_experience" years with
  | inr s, inr r, inr y =>
      inr {| current_skills := s; target_role := r; years_of_experience := y |}
  | a, b, c => inl (ValidationError (errors_of a ++ errors_of b ++ errors_of c)%list)
  end.

Definition MarketAnalysis_init (found gap salary : option pyval)
  : exn + MarketAnalysis :=
  match str_field "required_skills_found" found,
        str_field "critical_skill_gap" gap,
        str_field "average_salary_range" salary with
  | inr f, inr g, inr s =>
      inr {| required_skills_found := f; critical_skill_gap := g;
             average_salary_range := s |}
  | a, b, c => inl (ValidationError (errors_of a ++ errors_of b ++ errors_of c)%list)
  end.

End Schemas.

(** A library that converts nothing: only a [str] passes for a [str]
    field and only an [int] for an [int] field. *)
Definition no_coercion {A} (_ : pyval) : option A := None.

(** ** Agents, tasks and the crew *)

Record Agent : Type := {
  role : string;
  tools : list string;
  allow_delegation : bool
}.

Inductive Schema : Type :=
| UserProfile_schema
| MarketAnalysis_schema.

Record Task : Type := {
  agent : Agent;
  output_json : option Schema;
  expected_output : string
}.

Inductive Process : Type :=
| sequential
| hierarchical.

Record Crew : Type := {
  agents : list Agent;
  tasks : list Task;
  process : Process
}.

Definition profiler_agent : Agent :=
  {| role := "Career Profiler"; tools := []; allow_delegation := false |}.

Definition market_analyst : Agent :=
  {| role := "Real-Time Market Analyst";
     tools := ["Google Search Market Data"];
     allow_delegation := false |}.

Definition strategist_agent : Agent :=
  {| role := "Career Strategy Coach"; tools := []; allow_delegation := false |}.

Definition USER_CURRENT_SKILLS : string :=
  "Python, basic Excel, strong theoretical statistics, good communication.".
Definition USER_TARGET_ROLE : string := "Junior Data Analyst".
Definition USER_EXPERIENCE : Z := 2.

Definition task_profiler : Task :=
  {| agent := profiler_agent;
     output_json := Some UserProfile_schema;
     expected_output :=
       "A single, valid JSON object matching the UserProfile schema." |}.

Definition task_analyst : Task :=
  {| agent := market_analyst;
     output_json := Some MarketAnalysis_schema;
     expected_output :=
       "A single, valid JSON object matching the MarketAnalysis schema." |}.

Definition task_strategist : Task :=
  {| agent := strategist_agent;
     output_json := None;
     expected_output :=
       "A complete, well-formatted Markdown report (no JSON)." |}.

Definition career_crew : Crew :=
  {| agents := [profiler_agent; market_analyst; strategist_agent];
     tasks := [task_profiler; task_analyst; task_strategist];
     process := sequential |}.

(** ** Running the crew *)

(** What an observer of a run sees of the tasks: a task is started with
    the context handed to it, and it finishes with an output or fails. *)
Inductive event : Type :=
| Started (t : Task) (context : option string)
| Finished (t : Task) (output : string)
| Failed (t : Task) (e : exn).

Section Kickoff.

(** One agent working on one task with the context it is given: the
    language model's answer, or the exception it ends with.  The model
    is outside the script; the run is taken over any such behaviour. *)
Variable execute_task : Task -> option string -> exn + string.

(** The manager-driven process, which this script does not select. *)
Variable run_hierarchical : Crew -> list event * (exn + string).

Definition final_output (context : option string) : string :=
  match context with
  | Some o => o
  | None => EmptyString
  end.

(** Modelled from the spec: the sequential process that [career_crew]
    selects.  Its code is the orchestration framework's and no part of
    the script; the design has the stages run strictly one after the
    other, each consuming the output of the one before it, the pipeline
    abort at the first failure, and no retry.  Only whether the run
    returns or raises enters what is proved of the script. *)
Fixpoint run_sequential (ts : list Task) (context : option string)
  : list event * (exn + string) :=
  match ts with
  | [] => ([], inr (final_output context))
  | t :: ts' =>
      match execute_task t context with
      | inl e => ([Started t context; Failed t e], inl e)
      | inr o =>
          let (evs, r) := run_sequential ts' (Some o) in
          (Started t context :: Finished t o :: evs, r)
      end
  end.

(** [crew.kickoff()]. *)
Definition kickoff (c : Crew) : list event * (exn + string) :=
  match process c with
  | sequential => run_sequential (tasks c) None
  | hierarchical => run_hierarchical c
  end.

End Kickoff.

(** ** The top level of the script *)

Section Main.

(** [str(e)] as the f-strings of the handlers print it; the rendering is
    the exception class's own. *)
Variable str_exn : exn -> string.

Definition rule : string := str_mul "=" 80.

Definition report_header : string := "FINAL CAREER ROADMAP REPORT GENERATED:".

(** The handlers, tried in the order of the source: [APIError] first,
    any other [Exception] after it. *)
Definition handler (e : exn) : Py unit :=
  match e with
  | APIError _ =>
      print (nl ++ rule) ;;
      print "FATAL ERROR: Gemini API Key Issue." ;;
      print "Please ensure your GEMINI_API_KEY is correctly set in your .env file." ;;
      print ("Details: " ++ str_exn e) ;;
      print rule
  | _ => print (nl ++ "An unexpected error occurred: " ++ str_exn e)
  end.

(** The [try] block and its handlers, over what [career_crew.kickoff()]
    does. *)
Definition main (crew_kickoff : Py string) : Py unit :=
  try_except
    (print "--- Starting the Autonomous Career Guidance Agent ---" ;;
     final_result <- crew_kickoff ;;
     print (nl ++ rule) ;;
     print report_header ;;
     print rule ;;
     print final_result ;;
     print rule)
    handler.

(** The exit status of the interpreter: 0 when the script runs off its
    end, 1 when an exception is left uncaught. *)
Definition exit_status {A} (r : (exn + A) * stdout) : Z :=
  match fst r with
  | inr _ => 0
  | inl _ => 1
  end.

(** The [try] statement of lines 169-188, run on an empty output over the
    outcome of the crew's run taken as a value: what it prints and the
    status the interpreter exits with after it.  What the run itself
    prints is not part of it (see [main], which takes any run), nor are
    the module-level statements before the [try] (see [program]). *)
Definition script (execute_task : Task -> option string -> exn + string)
    (run_hierarchical : Crew -> list event * (exn + string)) : stdout * Z :=
  let r := main (lift (snd (kickoff execute_task run_hierarchical career_crew))) [] in
  (snd r, exit_status r).

(** The script from its first line: the module-level statements before
    the [try] (the imports, [load_dotenv()], the client, the agents, the
    tasks and the crew of lines 1-166) run under no handler; the [try]
    statement comes after them. *)
Definition program (module_level : Py unit) (crew_kickoff : Py string)
  : Py unit :=
  module_level ;; main crew_kickoff.

End Main.

(** ** The lookup contract of the design, for comparison *)

(** The snapshot the design's contract speaks of:
    [{ required_skills, mandatory_flags, salary_range }]. *)
Record MarketSnapshot : Type := {
  required_skills : list string;
  mandatory_flags : list bool;
  salary_range : string
}.

(** The snapshot as a Python value: a record of three components, the two
    sequences in parallel. *)
Definition snapshot_value (m : MarketSnapshot) : pyval :=
  PyDict [("required_skills", PyList (map PyStr (required_skills m)));
          ("mandatory_flags", PyList (map PyBool (mandatory_flags m)));
          ("salary_range", PyStr (salary_range m))].

Definition is_snapshot (v : pyval) : Prop :=
  exists m, length (required_skills m) = length (mandatory_flags m)
            /\ v = snapshot_value m.

(** What a call of the tool hands back, as a Python value; [None] when
    the call raises. *)
Definition tool_result (target_role : string) (out : stdout) : option pyval :=
  match fst (google_search_market_data target_role out) with
  | inr text => Some (PyStr text)
  | inl _ => None
  end.

(** ** Facts about texts *)

Lemma append_assoc (a b c : string) : (a ++ b) ++ c = a ++ b ++ c.
Proof.
  induction a as [|x a IH]; simpl; [reflexivity | now rewrite IH].
Qed.

Lemma startswith_app (p s : string) : startswith p (p ++ s) = true.
Proof.
  induction p as [|a p IH]; simpl; [reflexivity|].
  now rewrite Ascii.eqb_refl, IH.
Qed.

Lemma startswith_inv (p s : string) :
  startswith p s = true -> exists post, s = p ++ post.
Proof.
  revert s; induction p as [|a p IH]; intros s H; simpl in *.
  - now exists s.
  - destruct s as [|b s]; [discriminate|].
    apply andb_true_iff in H as [Hab Hps].
    apply Ascii.eqb_eq in Hab; subst b.
    destruct (IH _ Hps) as [post ->].
    now exists post.
Qed.

Lemma contains_startswith (sub s : string) :
  startswith sub s = true -> contains sub s = true.
Proof.
  intros H. destruct s; simpl; rewrite H; reflexivity.
Qed.

Lemma contains_app (sub pre post : string) :
  contains sub (pre ++ sub ++ post) = true.
Proof.
  induction pre as [|c pre IH].
  - change (contains sub (sub ++ post) = true).
    apply contains_startswith, startswith_app.
  - change (contains sub (String c (pre ++ sub ++ post)) = true).
    simpl. rewrite IH. apply orb_true_r.
Qed.

Lemma contains_inv (sub s : string) :
  contains sub s = true -> exists pre post, s = pre ++ sub ++ post.
Proof.
  induction s as [|c s IH]; simpl; intros H.
  - rewrite orb_false_r in H.
    destruct (startswith_inv _ _ H) as [post E].
    now exists EmptyString, post.
  - apply orb_true_iff in H as [H|H].
    + destruct (startswith_inv _ _ H) as [post E].
      now exists EmptyString, post.
    + destruct (IH H) as (pre & post & ->).
      now exists (String c pre), post.
Qed.

(** The test [sub in s] holds exactly when [sub] lies somewhere in [s]. *)
Lemma contains_spec (sub s : string) :
  contains sub s = true <-> exists pre post, s = pre ++ sub ++ post.
Proof.
  split; [apply contains_inv|].
  intros (pre & post & ->). apply contains_app.
Qed.

(** ** Facts about the tool *)

(** A call prints its banner once and returns the text of its branch; it
    raises on no role. *)
Lemma google_search_market_data_run (target_role : string) (out : stdout) :
  google_search_market_data target_role out
  = (inr (market_data target_role), (out ++ [tool_banner target_role])%list).
Proof.
  unfold google_search_market_data, market_data, bind, print, ret.
  destruct (contains "Data Analyst" target_role);
    [reflexivity | destruct (contains "Software Engineer" target_role); reflexivity].
Qed.

(** ** The claims about the tool *)

(** C1 (as the script has it): for the role "Junior Data Analyst" the tool
    prints its banner and returns one text, the Data Analyst text, and
    nothing else: no list of skills, no flags.  The text says that the
    primary mandatory skills are Advanced SQL, Tableau Visualization, and
    Python (Pandas/NumPy), that secondary skills include basic cloud
    proficiency (AWS/Azure), and that the typical salary range is
    $75,000 - $95,000. *)
Theorem junior_data_analyst_lookup (out : stdout) :
  google_search_market_data "Junior Data Analyst" out
  = (inr data_analyst_data, (out ++ [tool_banner "Junior Data Analyst"])%list)
  /\ tool_result "Junior Data Analyst" out = Some (PyStr data_analyst_data)
  /\ data_analyst_data
     = "Market Data: The primary mandatory skills for a Junior Data Analyst are: "
       ++ "Advanced SQL, Tableau Visualization, and Python (Pandas/NumPy)"
       ++ ". Secondary skills include "
       ++ "basic cloud proficiency (AWS/Azure)"
       ++ ". Typical salary range in major US metro areas is "
       ++ "$75,000 - $95,000" ++ ".".
Proof.
  unfold tool_result. rewrite google_search_market_data_run.
  repeat split.
Qed.

(** C1, the claim as stated, fails: what the tool returns for "Junior Data
    Analyst" is a text, so it is not the record of the skills SQL,
    Tableau, Python with the flags true, true, false, whatever the salary
    range; and the text names Python within its list of the primary
    mandatory skills. *)
Lemma junior_data_analyst_python_is_mandatory :
  exists text,
    tool_result "Junior Data Analyst" [] = Some (PyStr text)
    /\ (forall salary,
          PyStr text
          <> snapshot_value {| required_skills := ["SQL"; "Tableau"; "Python"];
                               mandatory_flags := [true; true; false];
                               salary_range := salary |})
    /\ contains "The primary mandatory skills for a Junior Data Analyst are: Advanced SQL, Tableau Visualization, and Python (Pandas/NumPy)."
         text = true.
Proof.
  exists data_analyst_data.
  split; [vm_compute; reflexivity|].
  split; [intros salary H; discriminate H | vm_compute; reflexivity].
Qed.

(** C2: a role that passes neither the "Data Analyst" test nor the
    "Software Engineer" test gets the generic requirements, which name
    communication, problem-solving and continuous learning; the call
    returns and raises nothing. *)
Theorem unknown_role_generic (target_role : string) (out : stdout)
    (Hda : contains "Data Analyst" target_role = false)
    (Hse : contains "Software Engineer" target_role = false) :
  google_search_market_data target_role out
  = (inr no_specific_data, (out ++ [tool_banner target_role])%list)
  /\ contains "communication" no_specific_data = true
  /\ contains "problem-solving" no_specific_data = true
  /\ contains "continuous learning" no_specific_data = true.
Proof.
  rewrite google_search_market_data_run.
  unfold market_data. rewrite Hda, Hse.
  repeat split; vm_compute; reflexivity.
Qed.

Lemma unknown_role_generic_witness :
  google_search_market_data "Pastry Chef" []
  = (inr no_specific_data, [tool_banner "Pastry Chef"])
  /\ contains "communication" no_specific_data = true
  /\ contains "problem-solving" no_specific_data = true
  /\ contains "continuous learning" no_specific_data = true.
Proof.
  apply (unknown_role_generic "Pastry Chef" []); reflexivity.
Defined.

(** C3 (as the script has it): for every role the tool returns one text,
    never a record: one of its three fixed texts.  The two role texts name
    a salary range; the generic text names none. *)
Theorem lookup_returns_text (target_role : string) (out : stdout) :
  exists text,
    google_search_market_data target_role out
    = (inr text, (out ++ [tool_banner target_role])%list)
    /\ tool_result target_role out = Some (PyStr text)
    /\ (text = data_analyst_data /\ contains "salary range" text = true
        \/ text = software_engineer_data /\ contains "salary range" text = true
        \/ text = no_specific_data /\ contains "salary" text = false).
Proof.
  exists (market_data target_role).
  unfold tool_result. rewrite google_search_market_data_run.
  repeat split. unfold market_data.
  destruct (contains "Data Analyst" target_role);
    [left | destruct (contains "Software Engineer" target_role); right; [left | right]];
    split; vm_compute; reflexivity.
Qed.

(** C3, the claim as stated, fails: what the tool returns for "Junior Data
    Analyst" is a text, which is no record of three components. *)
Lemma lookup_result_no_snapshot :
  exists text,
    tool_result "Junior Data Analyst" [] = Some (PyStr text)
    /\ ~ is_snapshot (PyStr text).
Proof.
  exists data_analyst_data. split; [vm_compute; reflexivity|].
  intros (m & _ & E). discriminate E.
Qed.

(** C4: the tool is deterministic in its role: two calls with equal roles
    return equal results, whatever had been printed before either, and
    print the same line. *)
Theorem lookup_deterministic (role1 role2 : string) (out1 out2 : stdout)
    (Hrole : role1 = role2) :
  fst (google_search_market_data role1 out1)
  = fst (google_search_market_data role2 out2)
  /\ exists line,
       snd (google_search_market_data role1 out1) = (out1 ++ [line])%list
       /\ snd (google_search_market_data role2 out2) = (out2 ++ [line])%list.
Proof.
  subst role2. rewrite !google_search_market_data_run. simpl.
  split; [reflexivity|]. exists (tool_banner role1). split; reflexivity.
Qed.

Lemma lookup_deterministic_witness :
  fst (google_search_market_data "Junior Data Analyst" [])
  = fst (google_search_market_data "Junior Data Analyst" ["earlier output"])
  /\ exists line,
       snd (google_search_market_data "Junior Data Analyst" []) = [line]
       /\ snd (google_search_market_data "Junior Data Analyst" ["earlier output"])
          = ["earlier output"; line].
Proof.
  apply (lookup_deterministic "Junior Data Analyst" "Junior Data Analyst"
           [] ["earlier output"] eq_refl).
Defined.

(** C10: the branches are substring tests with the case as written, tried
    in the order of the source.  A role with "Data Analyst" anywhere in it
    gets the Data Analyst text, also when "Software Engineer" occurs in it
    before or after; a role with "Software Engineer" and no "Data Analyst"
    gets the Software Engineer text; "junior data analyst" in lower case
    falls through to the generic text. *)
Theorem lookup_branch_order (out : stdout) :
  (forall pre post,
      fst (google_search_market_data (pre ++ "Data Analyst" ++ post) out)
      = inr data_analyst_data)
  /\ (forall pre mid post,
      fst (google_search_market_data
             (pre ++ "Software Engineer" ++ mid ++ "Data Analyst" ++ post) out)
      = inr data_analyst_data)
  /\ (forall pre mid post,
      fst (google_search_market_data
             (pre ++ "Data Analyst" ++ mid ++ "Software Engineer" ++ post) out)
      = inr data_analyst_data)
  /\ fst (google_search_market_data "Software Engineer" out)
     = inr software_engineer_data
  /\ fst (google_search_market_data "junior data analyst" out)
     = inr no_specific_data
  /\ fst (google_search_market_data "JUNIOR DATA ANALYST" out)
     = inr no_specific_data.
Proof.
  assert (Hda : forall pre post,
             fst (google_search_market_data (pre ++ "Data Analyst" ++ post) out)
             = inr data_analyst_data).
  { intros pre post. rewrite google_search_market_data_run.
    unfold market_data. rewrite contains_app. reflexivity. }
  split; [exact Hda|].
  split.
  { intros pre mid post.
    replace (pre ++ "Software Engineer" ++ mid ++ "Data Analyst" ++ post)
      with ((pre ++ "Software Engineer" ++ mid) ++ "Data Analyst" ++ post).
    - apply Hda.
    - rewrite !append_assoc. reflexivity. }
  split; [intros pre mid post; apply Hda|].
  repeat split; rewrite google_search_market_data_run; vm_compute; reflexivity.
Qed.

(** ** The claims about the profile schema *)

Section SchemaFacts.

Variable coerce_str : pyval -> option string.
Variable coerce_int : pyval -> option Z.

Local Abbreviation init := (UserProfile_init coerce_str coerce_int).

(** Values of the declared types pass as they are. *)
Lemma UserProfile_init_typed (s r : string) (z : Z) :
  init (Some (PyStr s)) (Some (PyStr r)) (Some (PyInt z))
  = inr {| current_skills := s; target_role := r; years_of_experience := z |}.
Proof. reflexivity. Qed.

(** A constructed profile holds what each field check returned. *)
Lemma UserProfile_init_inr (skills role years : option pyval) (p : UserProfile) :
  init skills role years = inr p ->
  str_field coerce_str "current_skills" skills = inr (current_skills p)
  /\ str_field coerce_str "target_role" role = inr (target_role p)
  /\ int_field coerce_int "years_of_experience" years
     = inr (years_of_experience p).
Proof.
  unfold UserProfile_init.
  destruct (str_field coerce_str "current_skills" skills);
    destruct (str_field coerce_str "target_role" role);
    destruct (int_field coerce_int "years_of_experience" years);
    intros H; try discriminate H.
  injection H as <-. auto.
Qed.

(** One failing field check fails the construction, with its error among
    those raised. *)
Lemma UserProfile_init_inl (skills role years : option pyval)
    (err : string * field_error) :
  str_field coerce_str "current_skills" skills = inl err
  \/ str_field coerce_str "target_role" role = inl err
  \/ int_field coerce_int "years_of_experience" years = inl err ->
  exists errs, init skills role years = inl (ValidationError errs) /\ In err errs.
Proof.
  unfold UserProfile_init.
  destruct (str_field coerce_str "current_skills" skills) as [e1|s];
    destruct (str_field coerce_str "target_role" role) as [e2|r];
    destruct (int_field coerce_int "years_of_experience" years) as [e3|y];
    intros [H|[H|H]]; try discriminate H; injection H as ->;
    (eexists; split; [reflexivity | simpl; tauto]).
Qed.

End SchemaFacts.

(** C5 (as the script has it): a value for [years_of_experience] that is
    no integer, and that the library converts to none, fails the
    construction with a [ValidationError] naming the field.  An integer
    passes whatever its sign: a negative one is stored as given. *)
Theorem years_must_be_integer (coerce_str : pyval -> option string)
    (coerce_int : pyval -> option Z) (skills role : option pyval) (v : pyval)
    (Hv : is_int v = false) (Hc : coerce_int v = None) :
  (exists errs,
      UserProfile_init coerce_str coerce_int skills role (Some v)
      = inl (ValidationError errs)
      /\ In ("years_of_experience", int_type) errs)
  /\ (forall s r z, (z < 0)%Z ->
        UserProfile_init coerce_str coerce_int
          (Some (PyStr s)) (Some (PyStr r)) (Some (PyInt z))
        = inr {| current_skills := s; target_role := r;
                 years_of_experience := z |}).
Proof.
  split.
  - apply UserProfile_init_inl. right; right.
    destruct v; simpl in *; try discriminate Hv; rewrite Hc; reflexivity.
  - intros s r z _. apply UserProfile_init_typed.
Qed.

Lemma years_must_be_integer_witness :
  (exists errs,
      UserProfile_init no_coercion no_coercion
        (Some (PyStr "Python, Excel")) (Some (PyStr "Junior Data Analyst"))
        (Some (PyStr "two"))
      = inl (ValidationError errs)
      /\ In ("years_of_experience", int_type) errs)
  /\ (forall s r z, (z < 0)%Z ->
        UserProfile_init no_coercion no_coercion
          (Some (PyStr s)) (Some (PyStr r)) (Some (PyInt z))
        = inr {| current_skills := s; target_role := r;
                 years_of_experience := z |}).
Proof.
  apply (years_must_be_integer no_coercion no_coercion
           (Some (PyStr "Python, Excel")) (Some (PyStr "Junior Data Analyst"))
           (PyStr "two")); reflexivity.
Defined.

(** C5, the claim as stated, fails: with -1 for the years the profile is
    constructed, and it holds -1. *)
Lemma negative_years_accepted :
  exists p,
    UserProfile_init no_coercion no_coercion
      (Some (PyStr "Python, Excel")) (Some (PyStr "Junior Data Analyst"))
      (Some (PyInt (-1)))
    = inr p
    /\ (years_of_experience p < 0)%Z.
Proof.
  eexists. split; [reflexivity | simpl; lia].
Qed.

(** C6 (as the script has it): any text passes as [target_role] and is
    stored as given, the empty text and texts of blanks included; a
    constructed profile holds the very text it was given; the field fails
    only when it is absent, or no text and converted to none. *)
Theorem target_role_stored_verbatim (coerce_str : pyval -> option string)
    (coerce_int : pyval -> option Z) :
  (forall s r z,
      UserProfile_init coerce_str coerce_int
        (Some (PyStr s)) (Some (PyStr r)) (Some (PyInt z))
      = inr {| current_skills := s; target_role := r; years_of_experience := z |})
  /\ (forall skills r years p,
      UserProfile_init coerce_str coerce_int skills (Some (PyStr r)) years = inr p ->
      target_role p = r)
  /\ (forall skills years,
      exists errs,
        UserProfile_init coerce_str coerce_int skills None years
        = inl (ValidationError errs)
        /\ In ("target_role", missing) errs)
  /\ (forall skills v years,
      is_str v = false -> coerce_str v = None ->
      exists errs,
        UserProfile_init coerce_str coerce_int skills (Some v) years
        = inl (ValidationError errs)
        /\ In ("target_role", string_type) errs).
Proof.
  split; [intros; apply UserProfile_init_typed|].
  split.
  { intros skills r years p H.
    apply UserProfile_init_inr in H as (_ & H & _).
    simpl in H. now injection H. }
  split.
  { intros skills years. apply UserProfile_init_inl. right; left. reflexivity. }
  intros skills v years Hv Hc. apply UserProfile_init_inl. right; left.
  destruct v; simpl in *; try discriminate Hv; rewrite Hc; reflexivity.
Qed.

(** C6, the claim as stated, fails: a role of three blanks is accepted,
    and the profile's role is empty once trimmed. *)
Lemma blank_target_role_accepted :
  exists p,
    UserProfile_init no_coercion no_coercion
      (Some (PyStr "Python, Excel")) (Some (PyStr "   ")) (Some (PyInt 2))
    = inr p
    /\ strip (target_role p) = "".
Proof.
  eexists. split; reflexivity.
Qed.

(** C7: for any skills text, any role that is not empty once trimmed and
    any years from 0 on, the profile is constructed and its three fields
    are exactly the values given. *)
Theorem profile_round_trip (coerce_str : pyval -> option string)
    (coerce_int : pyval -> option Z) (skills role : string) (years : Z)
    (Hrole : strip role <> "") (Hyears : (0 <= years)%Z) :
  exists p,
    UserProfile_init coerce_str coerce_int
      (Some (PyStr skills)) (Some (PyStr role)) (Some (PyInt years))
    = inr p
    /\ current_skills p = skills
    /\ target_role p = role
    /\ years_of_experience p = years.
Proof.
  eexists. split; [apply UserProfile_init_typed|]. repeat split.
Qed.

Lemma profile_round_trip_witness :
  exists p,
    UserProfile_init no_coercion no_coercion
      (Some (PyStr USER_CURRENT_SKILLS)) (Some (PyStr USER_TARGET_ROLE))
      (Some (PyInt USER_EXPERIENCE))
    = inr p
    /\ current_skills p = USER_CURRENT_SKILLS
    /\ target_role p = USER_TARGET_ROLE
    /\ years_of_experience p = USER_EXPERIENCE.
Proof.
  apply (profile_round_trip no_coercion no_coercion
           USER_CURRENT_SKILLS USER_TARGET_ROLE USER_EXPERIENCE).
  - vm_compute. discriminate.
  - vm_compute. discriminate.
Defined.

(** ** The claims about the run *)

Section MainFacts.

Variable str_exn : exn -> string.

(** What the handlers print for an exception. *)
Lemma handler_prints (e : exn) (out : stdout) :
  handler str_exn e out
  = (inr tt,
     List.app out
       match e with
       | APIError _ =>
           [nl ++ rule;
            "FATAL ERROR: Gemini API Key Issue.";
            "Please ensure your GEMINI_API_KEY is correctly set in your .env file.";
            "Details: " ++ str_exn e;
            rule]
       | _ => [nl ++ "An unexpected error occurred: " ++ str_exn e]
       end).
Proof.
  destruct e; unfold handler, bind, print; try reflexivity.
  now rewrite <- !app_assoc.
Qed.

(** The handlers catch every exception of the [try] block: [main] ends
    without one. *)
Lemma main_catches (crew_kickoff : Py string) (out : stdout) :
  fst (main str_exn crew_kickoff out) = inr tt.
Proof.
  unfold main, try_except, bind, print.
  destruct (crew_kickoff _) as [[e|report] out']; [|reflexivity].
  now rewrite handler_prints.
Qed.

End MainFacts.




(** ** Further properties of the tool *)

(** [c.isupper()] on the ASCII letters. *)
Definition is_upper (c : ascii) : bool :=
  let n := nat_of_ascii c in
  ((65 <=? n) && (n <=? 90))%nat.

(** Some character of the text is an upper-case letter. *)
Fixpoint has_upper (s : string) : bool :=
  match s with
  | EmptyString => false
  | String c s' => is_upper c || has_upper s'
  end.

Lemma length_app (a b : string) :
  String.length (a ++ b) = String.length a + String.length b.
Proof.
  induction a as [|c a IH]; simpl; [reflexivity | now rewrite IH].
Qed.

(** A text holds no text longer than itself. *)
Lemma contains_length (sub s : string) :
  contains sub s = true -> String.length sub <= String.length s.
Proof.
  intros H. apply contains_inv in H as (pre & post & ->).
  rewrite !length_app. lia.
Qed.

Lemma has_upper_app (a b : string) :
  has_upper (a ++ b) = has_upper a || has_upper b.
Proof.
  induction a as [|c a IH]; simpl; [reflexivity|].
  now rewrite IH, orb_assoc.
Qed.

(** A text that holds a text with an upper-case letter has one itself. *)
Lemma contains_has_upper (sub s : string) :
  contains sub s = true -> has_upper sub = true -> has_upper s = true.
Proof.
  intros H Hup. apply contains_inv in H as (pre & post & ->).
  rewrite !has_upper_app, Hup. apply orb_true_iff. right. reflexivity.
Qed.

Lemma lower_ascii_not_upper (c : ascii) : is_upper (lower_ascii c) = false.
Proof.
  destruct c as [[] [] [] [] [] [] [] []]; reflexivity.
Qed.

Lemma has_upper_lower (s : string) : has_upper (lower s) = false.
Proof.
  induction s as [|c s IH]; simpl; [reflexivity|].
  now rewrite lower_ascii_not_upper, IH.
Qed.

(** A role without upper-case letters passes neither test. *)
Lemma no_upper_no_match (target_role : string) :
  has_upper target_role = false ->
  contains "Data Analyst" target_role = false
  /\ contains "Software Engineer" target_role = false.
Proof.
  intros Hno. split.
  - destruct (contains "Data Analyst" target_role) eqn:E; [|reflexivity].
    apply contains_has_upper in E; [congruence | reflexivity].
  - destruct (contains "Software Engineer" target_role) eqn:E; [|reflexivity].
    apply contains_has_upper in E; [congruence | reflexivity].
Qed.

(** The three answers are three different texts. *)
Lemma answers_distinct :
  data_analyst_data <> software_engineer_data
  /\ data_analyst_data <> no_specific_data
  /\ software_engineer_data <> no_specific_data.
Proof.
  repeat split; intros H; vm_compute in H; discriminate H.
Qed.

(** X1: a role with "Software Engineer" in it and no "Data Analyst"
    anywhere gets the Software Engineer text, after the banner has been
    printed. *)
Theorem software_engineer_branch (pre post : string) (out : stdout)
    (Hda : contains "Data Analyst" (pre ++ "Software Engineer" ++ post) = false) :
  google_search_market_data (pre ++ "Software Engineer" ++ post) out
  = (inr software_engineer_data,
     (out ++ [tool_banner (pre ++ "Software Engineer" ++ post)])%list).
Proof.
  rewrite google_search_market_data_run. unfold market_data.
  rewrite Hda, contains_app. reflexivity.
Qed.

Lemma software_engineer_branch_witness :
  google_search_market_data ("Senior " ++ "Software Engineer" ++ " (Backend)") []
  = (inr software_engineer_data,
     [tool_banner ("Senior " ++ "Software Engineer" ++ " (Backend)")]).
Proof.
  apply (software_engineer_branch "Senior " " (Backend)" []). reflexivity.
Defined.

(** X2: the answer tells the branch.  The Data Analyst text is returned
    exactly for the roles that have "Data Analyst" somewhere in them; the
    Software Engineer text exactly for those that have "Software
    Engineer" and no "Data Analyst"; the generic text exactly for those
    that have neither. *)
Theorem answer_tells_branch (target_role : string) (out : stdout) :
  (fst (google_search_market_data target_role out) = inr data_analyst_data
   <-> exists pre post, target_role = pre ++ "Data Analyst" ++ post)
  /\ (fst (google_search_market_data target_role out) = inr software_engineer_data
      <-> (forall pre post, target_role <> pre ++ "Data Analyst" ++ post)
          /\ exists pre post, target_role = pre ++ "Software Engineer" ++ post)
  /\ (fst (google_search_market_data target_role out) = inr no_specific_data
      <-> (forall pre post, target_role <> pre ++ "Data Analyst" ++ post)
          /\ (forall pre post, target_role <> pre ++ "Software Engineer" ++ post)).
Proof.
  destruct answers_distinct as (Hds & Hdn & Hsn).
  rewrite google_search_market_data_run. unfold market_data, fst.
  pose proof (contains_spec "Data Analyst" target_role) as Hda.
  pose proof (contains_spec "Software Engineer" target_role) as Hse.
  assert (Hno : forall sub : string,
             contains sub target_role = false ->
             forall pre post, target_role <> pre ++ sub ++ post).
  { intros sub E pre post ->. rewrite contains_app in E. discriminate E. }
  destruct (contains "Data Analyst" target_role) eqn:Eda.
  - destruct (proj1 Hda eq_refl) as (pre & post & Hrole).
    repeat split; try congruence; try (now exists pre, post);
      intros [H _]; now apply H in Hrole.
  - pose proof (Hno _ Eda) as Hnda.
    destruct (contains "Software Engineer" target_role) eqn:Ese.
    + destruct (proj1 Hse eq_refl) as (pre & post & Hrole).
      repeat split; try congruence; try assumption; try (now exists pre, post).
      * intros (p & q & H). now apply Hnda in H.
      * intros [_ H]. now apply H in Hrole.
    + pose proof (Hno _ Ese) as Hnse.
      repeat split; try congruence; try assumption.
      * intros (p & q & H). now apply Hnda in H.
      * intros [_ (p & q & H)]. now apply Hnse in H.
Qed.

(** X3: a role of fewer than twelve characters, the empty role included,
    is too short for either test and gets the generic text. *)
Theorem short_role_generic (target_role : string) (out : stdout)
    (Hshort : String.length target_role < 12) :
  google_search_market_data target_role out
  = (inr no_specific_data, (out ++ [tool_banner target_role])%list).
Proof.
  rewrite google_search_market_data_run. unfold market_data.
  destruct (contains "Data Analyst" target_role) eqn:Eda.
  { apply contains_length in Eda. simpl in Eda. lia. }
  destruct (contains "Software Engineer" target_role) eqn:Ese.
  { apply contains_length in Ese. simpl in Ese. lia. }
  reflexivity.
Qed.

Lemma short_role_generic_witness :
  google_search_market_data "" [] = (inr no_specific_data, [tool_banner ""]).
Proof.
  apply (short_role_generic "" []). simpl. lia.
Defined.

(** X4: the tests keep the case, and both texts looked for have
    upper-case letters: a role without any upper-case letter gets the
    generic text, and so does every role once put in lower case. *)
Theorem lower_case_role_generic (target_role : string) (out : stdout) :
  (has_upper target_role = false ->
   fst (google_search_market_data target_role out) = inr no_specific_data)
  /\ fst (google_search_market_data (lower target_role) out)
     = inr no_specific_data.
Proof.
  assert (H : forall r, has_upper r = false ->
                        fst (google_search_market_data r out) = inr no_specific_data).
  { intros r Hno. rewrite google_search_market_data_run. unfold market_data.
    destruct (no_upper_no_match r Hno) as [-> ->]. reflexivity. }
  split; [apply H | apply H, has_upper_lower].
Qed.

(** X5: whatever the role, the answer is a text that opens with the tag
    "Market Data: ". *)
Theorem answer_is_tagged (target_role : string) (out : stdout) :
  exists body,
    fst (google_search_market_data target_role out)
    = inr ("Market Data: " ++ body).
Proof.
  rewrite google_search_market_data_run. unfold fst.
  destruct (startswith_inv "Market Data: " (market_data target_role)) as [body E].
  - unfold market_data.
    destruct (contains "Data Analyst" target_role);
      [|destruct (contains "Software Engineer" target_role)]; reflexivity.
  - exists body. now rewrite E.
Qed.

(** ** Further properties of the schemas *)

Section SchemaShape.

Variable coerce_str : pyval -> option string.
Variable coerce_int : pyval -> option Z.

(** A text field fails for its absence or for its type, under its own
    name. *)
Lemma str_field_error (name : string) (v : option pyval)
    (err : string * field_error) :
  str_field coerce_str name v = inl err ->
  err = (name, missing) \/ err = (name, string_type).
Proof.
  destruct v as [[| | | | |]|]; simpl;
    try destruct (coerce_str _); intros H; try discriminate H;
    injection H as <-; auto.
Qed.

Lemma int_field_error (name : string) (v : option pyval)
    (err : string * field_error) :
  int_field coerce_int name v = inl err ->
  err = (name, missing) \/ err = (name, int_type).
Proof.
  destruct v as [[| | | | |]|]; simpl;
    try destruct (coerce_int _); intros H; try discriminate H;
    injection H as <-; auto.
Qed.

End SchemaShape.

(** X6: the three fields of [UserProfile] are required, none has a
    default: with the skills absent, or with the years absent, the
    construction fails and reports that field as missing, whatever the
    other fields hold; with nothing given, the three fields are reported
    missing, in the order of their declaration. *)
Theorem profile_fields_required (coerce_str : pyval -> option string)
    (coerce_int : pyval -> option Z) :
  (forall role years,
      exists errs,
        UserProfile_init coerce_str coerce_int None role years
        = inl (ValidationError errs)
        /\ In ("current_skills", missing) errs)
  /\ (forall skills role,
      exists errs,
        UserProfile_init coerce_str coerce_int skills role None
        = inl (ValidationError errs)
        /\ In ("years_of_experience", missing) errs)
  /\ UserProfile_init coerce_str coerce_int None None None
     = inl (ValidationError [("current_skills", missing);
                             ("target_role", missing);
                             ("years_of_experience", missing)]).
Proof.
  split; [|split; [|reflexivity]].
  - intros role years. apply UserProfile_init_inl. left. reflexivity.
  - intros skills role. apply UserProfile_init_inl. right; right. reflexivity.
Qed.

(** X7: a failing construction of a [UserProfile] raises a validation
    error and nothing else; the error holds between one and three entries,
    and each entry is one of: a text field missing or not a text, the
    years missing or not an integer. *)
Theorem profile_failure_shape (coerce_str : pyval -> option string)
    (coerce_int : pyval -> option Z) (skills role years : option pyval)
    (e : exn)
    (Hfail : UserProfile_init coerce_str coerce_int skills role years = inl e) :
  exists errs,
    e = ValidationError errs
    /\ 1 <= length errs <= 3
    /\ forall err, In err errs ->
         In err [("current_skills", missing); ("current_skills", string_type);
                 ("target_role", missing); ("target_role", string_type);
                 ("years_of_experience", missing);
                 ("years_of_experience", int_type)].
Proof.
  unfold UserProfile_init in Hfail.
  pose proof (str_field_error coerce_str "current_skills" skills) as H1.
  pose proof (str_field_error coerce_str "target_role" role) as H2.
  pose proof (int_field_error coerce_int "years_of_experience" years) as H3.
  destruct (str_field coerce_str "current_skills" skills) as [e1|s];
    destruct (str_field coerce_str "target_role" role) as [e2|r];
    destruct (int_field coerce_int "years_of_experience" years) as [e3|y];
    try discriminate Hfail; injection Hfail as <-;
    (eexists; split; [reflexivity|]; split; [simpl; lia|]);
    intros err Hin; simpl in Hin;
    repeat match goal with
      | H : _ \/ _ |- _ => destruct H
      | H : False |- _ => contradiction
      | H : forall err, inl ?x = inl err -> _ |- _ => specialize (H x eq_refl)
      | H : forall err, inr _ = inl err -> _ |- _ => clear H
      end; subst; simpl; tauto.
Qed.

Lemma profile_failure_shape_witness :
  exists errs,
    ValidationError [("current_skills", missing); ("target_role", string_type);
                     ("years_of_experience", int_type)]
    = ValidationError errs
    /\ 1 <= length errs <= 3
    /\ forall err, In err errs ->
         In err [("current_skills", missing); ("current_skills", string_type);
                 ("target_role", missing); ("target_role", string_type);
                 ("years_of_experience", missing);
                 ("years_of_experience", int_type)].
Proof.
  apply (profile_failure_shape no_coercion no_coercion
           None (Some (PyInt 3)) (Some (PyStr "two"))).
  reflexivity.
Defined.

(** X8: [MarketAnalysis] checks presence and type only.  Three texts are
    stored as given, whatever they say: an empty [critical_skill_gap]
    passes like any other.  A constructed analysis was given all three
    fields, and where a field was given as a text it holds that text.  An
    absent [critical_skill_gap] fails the construction. *)
Theorem market_analysis_fields (coerce_str : pyval -> option string) :
  (forall found gap salary,
      MarketAnalysis_init coerce_str
        (Some (PyStr found)) (Some (PyStr gap)) (Some (PyStr salary))
      = inr {| required_skills_found := found; critical_skill_gap := gap;
               average_salary_range := salary |})
  /\ (forall found salary,
      exists m,
        MarketAnalysis_init coerce_str
          (Some (PyStr found)) (Some (PyStr "")) (Some (PyStr salary))
        = inr m
        /\ critical_skill_gap m = "")
  /\ (forall found gap salary m,
      MarketAnalysis_init coerce_str found gap salary = inr m ->
      found <> None /\ gap <> None /\ salary <> None
      /\ (forall s, found = Some (PyStr s) -> required_skills_found m = s)
      /\ (forall s, gap = Some (PyStr s) -> critical_skill_gap m = s)
      /\ (forall s, salary = Some (PyStr s) -> average_salary_range m = s))
  /\ (forall found salary,
      exists errs,
        MarketAnalysis_init coerce_str found None salary
        = inl (ValidationError errs)
        /\ In ("critical_skill_gap", missing) errs).
Proof.
  split; [reflexivity|].
  split; [intros; eexists; split; reflexivity|].
  split.
  - intros found gap salary m. unfold MarketAnalysis_init.
    destruct (str_field coerce_str "required_skills_found" found) as [e1|f] eqn:E1;
      destruct (str_field coerce_str "critical_skill_gap" gap) as [e2|g] eqn:E2;
      destruct (str_field coerce_str "average_salary_range" salary) as [e3|s] eqn:E3;
      intros H; try discriminate H.
    injection H as <-. simpl.
    repeat split; try (intros ->; discriminate);
      intros x ->; simpl in *; congruence.
  - intros found salary. unfold MarketAnalysis_init. simpl.
    destruct (str_field coerce_str "required_skills_found" found);
      destruct (str_field coerce_str "average_salary_range" salary);
      eexists; (split; [reflexivity | simpl; tauto]).
Qed.

(** ** Further properties of the top level *)

(** X9: when [career_crew.kickoff()] returns a report, the [try] block
    prints, after its opening line and whatever the run itself has
    printed, a rule of 80 "=" (led by a line feed), the header of the
    report, a rule, the report and a rule, in this order, and no exception
    leaves the statement. *)
Theorem report_is_printed (str_exn : exn -> string) (crew_kickoff : Py string)
    (out out' : stdout) (report : string)
    (Hok : crew_kickoff
             (out ++ ["--- Starting the Autonomous Career Guidance Agent ---"])%list
           = (inr report, out')) :
  main str_exn crew_kickoff out
  = (inr tt,
     List.app out'
       [nl ++ rule; "FINAL CAREER ROADMAP REPORT GENERATED:"; rule; report; rule])
  /\ String.length rule = 80.
Proof.
  split; [|reflexivity].
  unfold main, try_except, bind, print. rewrite Hok.
  rewrite <- !app_assoc. reflexivity.
Qed.

Lemma report_is_printed_witness :
  main (fun _ => "")
    (text <- google_search_market_data USER_TARGET_ROLE ;; ret ("Roadmap. " ++ text))
    []
  = (inr tt,
     List.app
       ["--- Starting the Autonomous Career Guidance Agent ---";
        tool_banner USER_TARGET_ROLE]
       [nl ++ rule; "FINAL CAREER ROADMAP REPORT GENERATED:"; rule;
        "Roadmap. " ++ data_analyst_data; rule])
  /\ String.length rule = 80.
Proof.
  apply (report_is_printed (fun _ => "")
           (text <- google_search_market_data USER_TARGET_ROLE ;;
            ret ("Roadmap. " ++ text))
           []
           ["--- Starting the Autonomous Career Guidance Agent ---";
            tool_banner USER_TARGET_ROLE]
           ("Roadmap. " ++ data_analyst_data)).
  reflexivity.
Defined.

(** X10: when [career_crew.kickoff()] raises an [Exception], whatever it
    has printed before, the [try] statement catches it: after the run's own
    output come the five lines on the API key for an [APIError], and the
    one line "An unexpected error occurred: ..." for any other exception;
    the statement ends without an exception, and none of these lines is
    the header of the report. *)
Theorem exception_is_caught (str_exn : exn -> string) (crew_kickoff : Py string)
    (out out' : stdout) (e : exn)
    (Hfail : crew_kickoff
               (out ++ ["--- Starting the Autonomous Career Guidance Agent ---"])%list
             = (inl e, out')) :
  main str_exn crew_kickoff out
  = (inr tt,
     List.app out'
       match e with
       | APIError _ =>
           [nl ++ rule;
            "FATAL ERROR: Gemini API Key Issue.";
            "Please ensure your GEMINI_API_KEY is correctly set in your .env file.";
            "Details: " ++ str_exn e;
            rule]
       | _ => [nl ++ "An unexpected error occurred: " ++ str_exn e]
       end)
  /\ exit_status (main str_exn crew_kickoff out) = 0%Z
  /\ ~ In report_header
         match e with
         | APIError _ =>
             [nl ++ rule;
              "FATAL ERROR: Gemini API Key Issue.";
              "Please ensure your GEMINI_API_KEY is correctly set in your .env file.";
              "Details: " ++ str_exn e;
              rule]
         | _ => [nl ++ "An unexpected error occurred: " ++ str_exn e]
         end.
Proof.
  split; [|split].
  - unfold main, try_except, bind, print. rewrite Hfail.
    apply handler_prints.
  - unfold exit_status. now rewrite main_catches.
  - unfold report_header. destruct e; simpl; intuition discriminate.
Qed.

Lemma exception_is_caught_witness :
  main (fun _ => "invalid key")
    (google_search_market_data USER_TARGET_ROLE ;; raise (APIError "invalid key"))
    []
  = (inr tt,
     List.app
       ["--- Starting the Autonomous Career Guidance Agent ---";
        tool_banner USER_TARGET_ROLE]
       [nl ++ rule;
        "FATAL ERROR: Gemini API Key Issue.";
        "Please ensure your GEMINI_API_KEY is correctly set in your .env file.";
        "Details: " ++ "invalid key";
        rule])
  /\ exit_status
       (main (fun _ => "invalid key")
          (google_search_market_data USER_TARGET_ROLE ;;
           raise (APIError "invalid key"))
          [])
     = 0%Z
  /\ ~ In report_header
         [nl ++ rule;
          "FATAL ERROR: Gemini API Key Issue.";
          "Please ensure your GEMINI_API_KEY is correctly set in your .env file.";
          "Details: " ++ "invalid key";
          rule].
Proof.
  apply (exception_is_caught (fun _ => "invalid key")
           (google_search_market_data USER_TARGET_ROLE ;;
            raise (APIError "invalid key"))
           []
           ["--- Starting the Autonomous Career Guidance Agent ---";
            tool_banner USER_TARGET_ROLE]
           (APIError "invalid key")).
  reflexivity.
Defined.

(** X11: the statements before the [try] run under no handler.  When one
    of them raises, the script ends with that exception, prints none of
    its own lines, not even the opening line, and the interpreter exits
    with status 1.  The script ends with status 0 exactly when the
    statements before the [try] get through, whatever the crew's run
    does after that. *)
Theorem module_level_is_unguarded (str_exn : exn -> string)
    (module_level : Py unit) (crew_kickoff : Py string) (out : stdout) :
  (forall e out',
      module_level out = (inl e, out') ->
      program str_exn module_level crew_kickoff out = (inl e, out')
      /\ exit_status (program str_exn module_level crew_kickoff out) = 1%Z)
  /\ (exit_status (program str_exn module_level crew_kickoff out) = 0%Z
      <-> exists out', module_level out = (inr tt, out'))
  /\ (exit_status (program str_exn module_level crew_kickoff out) = 1%Z
      <-> exists e out', module_level out = (inl e, out')).
Proof.
  unfold program, bind, exit_status.
  destruct (module_level out) as [[e|[]] out1] eqn:E.
  - split; [intros e' out' H; injection H as <- <-; split; reflexivity|].
    split; split; simpl.
    + discriminate.
    + intros [out' H]. discriminate H.
    + intros _. now exists e, out1.
    + reflexivity.
  - rewrite main_catches.
    split; [intros e' out' H; discriminate H|].
    split; split; simpl.
    + intros _. now exists out1.
    + reflexivity.
    + discriminate.
    + intros (e' & out' & H). discriminate H.
Qed.
